(** * jenkins-mcp: the crumb-aware access layer, embedded and verified

    The development follows the two Python sources of the repository:

    - [src/jenkins_mcp/server.py]   (module [Server] below): the crumb
      provider [get_jenkins_crumb], the session start [jenkins_lifespan]
      and the three tools, of which [trigger_build] is the interesting one;
    - [src/scripts/jenkins_api_fix.py] (module [Script] below): the
      reference script with the retrying executor [make_jenkins_request].

    Python values that the code tests dynamically are kept dynamic
    ([Py.pyval]); exceptions are values of [Py.exn] carried by a small
    state-and-exception monad, so that [try]/[except] blocks are modelled
    as they are written.  Everything beyond the process (the HTTP
    server, the [python-jenkins] client library) is a [Backend]: an
    arbitrary deterministic state machine that answers each call. *)

From stdpp Require Import base strings gmap list pretty.
From Stdlib Require Import ZArith Ascii Lia.

Set Warnings "-register-all".

Local Open Scope Z_scope.

(** ** Python primitives used by the sources *)

Module Py.

(** Exception classes met in the two files.  Every one of them derives
    from [Exception], so [except Exception] catches them all. *)
Inductive exn :=
| ValueError (msg : string)
| KeyError (key : string)
| IndexError (msg : string)
| TypeError (msg : string)
| RecursionError (msg : string)
| RequestException (msg : string)     (* requests.exceptions.* : transport failures *)
| JenkinsException (msg : string).    (* raised by the python-jenkins client *)

Inductive result (A : Type) :=
| Ok (a : A)
| Raise (e : exn).
Arguments Ok {A} a.
Arguments Raise {A} e.

(** [str(e)]: a [KeyError] prints the repr of its key. *)
Definition str_of_exn (e : exn) : string :=
  match e with
  | ValueError m | IndexError m | TypeError m | RecursionError m
  | RequestException m | JenkinsException m => m
  | KeyError k => "'" +:+ k +:+ "'"
  end.

(** Dynamic values: what a tool argument may be at run time. *)
Inductive pyval :=
| PyNone
| PyBool (b : bool)
| PyInt (z : Z)
| PyStr (s : string)
| PyList (l : list pyval)
| PyDict (d : list (pyval * pyval)).

(** [bool(v)] *)
Definition truthy (v : pyval) : bool :=
  match v with
  | PyNone => false
  | PyBool b => b
  | PyInt z => negb (z =? 0)
  | PyStr s => negb (bool_decide (s = ""))
  | PyList l => match l with [] => false | _ => true end
  | PyDict d => match d with [] => false | _ => true end
  end.

(** [v is None] *)
Definition is_none (v : pyval) : bool :=
  match v with PyNone => true | _ => false end.

Definition isinstance_str (v : pyval) : bool :=
  match v with PyStr _ => true | _ => false end.

Definition isinstance_dict (v : pyval) : bool :=
  match v with PyDict _ => true | _ => false end.

(** [str(type(v))], as interpolated by the error messages. *)
Definition type_name (v : pyval) : string :=
  match v with
  | PyNone => "<class 'NoneType'>"
  | PyBool _ => "<class 'bool'>"
  | PyInt _ => "<class 'int'>"
  | PyStr _ => "<class 'str'>"
  | PyList _ => "<class 'list'>"
  | PyDict _ => "<class 'dict'>"
  end.

(** JSON scalars: the values held by the job-info and crumb objects under
    the keys the code reads. *)
Inductive jval :=
| JNull
| JInt (z : Z)
| JStr (s : string).

(** A JSON scalar is a Python value. *)
Definition pyval_of_jval (v : jval) : pyval :=
  match v with
  | JNull => PyNone
  | JInt z => PyInt z
  | JStr s => PyStr s
  end.

(** [str(v)], as an f-string interpolates it. *)
Definition str_of_jval (v : jval) : string :=
  match v with
  | JNull => "None"
  | JInt z => pretty z
  | JStr s => s
  end.

(** [d[key]] on a dict with string keys. *)
Definition dict_getitem {V} (d : gmap string V) (key : string) : result V :=
  match d !! key with
  | Some v => Ok v
  | None => Raise (KeyError key)
  end.

(** [bool(d)] for a dict: [{}] is falsy. *)
Definition dict_nonempty `{Countable K} {V} (d : gmap K V) : bool :=
  bool_decide (d ≠ ∅).

(** Truth value of an [Optional[Dict]]: [None] and [{}] are falsy. *)
Definition dict_truthy `{Countable K} {V} (d : option (gmap K V)) : bool :=
  match d with
  | Some m => dict_nonempty m
  | None => false
  end.

(** *** Strings *)

(** [needle in hay] *)
Fixpoint str_contains (needle hay : string) : bool :=
  String.prefix needle hay ||
  match hay with
  | EmptyString => false
  | String _ rest => str_contains needle rest
  end.

Definition lower_ascii (a : ascii) : ascii :=
  let n := nat_of_ascii a in
  if ((65 <=? n) && (n <=? 90))%nat then ascii_of_nat (n + 32) else a.

(** [s.lower()] on ASCII text. *)
Fixpoint lower (s : string) : string :=
  match s with
  | EmptyString => EmptyString
  | String a rest => String (lower_ascii a) (lower rest)
  end.

(** [s.rstrip(c)] for a one-character argument. *)
Fixpoint rstrip (c : ascii) (s : string) : string :=
  match s with
  | EmptyString => EmptyString
  | String a rest =>
      match rstrip c rest with
      | EmptyString => if bool_decide (a = c) then EmptyString else String a EmptyString
      | kept => String a kept
      end
  end.

(** [s.split(sep)] for a one-character separator: never the empty list. *)
Fixpoint split (sep : ascii) (s : string) : list string :=
  match s with
  | EmptyString => [EmptyString]
  | String a rest =>
      if bool_decide (a = sep) then EmptyString :: split sep rest
      else match split sep rest with
           | first :: others => String a first :: others
           | [] => [String a EmptyString]
           end
  end.

(** [l[i]] with Python's negative indices. *)
Definition getitem {A} (l : list A) (i : Z) : result A :=
  let n := Z.of_nat (List.length l) in
  let j := if i <? 0 then i + n else i in
  if (j <? 0) || (n <=? j) then Raise (IndexError "list index out of range")
  else match l !! Z.to_nat j with
       | Some x => Ok x
       | None => Raise (IndexError "list index out of range")
       end.

(** *** [int(s)]

    Base ten, on ASCII text: surrounding whitespace is dropped, one sign is
    allowed, and single underscores may separate digits. *)

Definition is_space (a : ascii) : bool :=
  let n := nat_of_ascii a in
  (((9 <=? n) && (n <=? 13)) || ((28 <=? n) && (n <=? 32)))%nat.

Fixpoint lstrip_ws (s : string) : string :=
  match s with
  | EmptyString => EmptyString
  | String a rest => if is_space a then lstrip_ws rest else s
  end.

Fixpoint rstrip_ws (s : string) : string :=
  match s with
  | EmptyString => EmptyString
  | String a rest =>
      match rstrip_ws rest with
      | EmptyString => if is_space a then EmptyString else String a EmptyString
      | kept => String a kept
      end
  end.

Definition digit_val (a : ascii) : option Z :=
  let n := nat_of_ascii a in
  if ((48 <=? n) && (n <=? 57))%nat then Some (Z.of_nat (n - 48)) else None.

(** The text after a digit: more digits, each optionally preceded by one
    underscore. *)
Fixpoint int_digits (acc : Z) (s : string) : option Z :=
  match s with
  | EmptyString => Some acc
  | String a rest =>
      match digit_val a with
      | Some d => int_digits (acc * 10 + d) rest
      | None =>
          if bool_decide (a = "_"%char) then
            match rest with
            | String b rest' =>
                match digit_val b with
                | Some d => int_digits (acc * 10 + d) rest'
                | None => None
                end
            | EmptyString => None
            end
          else None
      end
  end.

Definition int_unsigned (s : string) : option Z :=
  match s with
  | String a rest =>
      match digit_val a with
      | Some d => int_digits d rest
      | None => None
      end
  | EmptyString => None
  end.

Definition int_of_str (s : string) : result Z :=
  let body := rstrip_ws (lstrip_ws s) in
  let parsed :=
    match body with
    | String a rest =>
        if bool_decide (a = "+"%char) then int_unsigned rest
        else if bool_decide (a = "-"%char) then Z.opp <$> int_unsigned rest
        else int_unsigned body
    | EmptyString => None
    end in
  match parsed with
  | Some z => Ok z
  | None => Raise (ValueError ("invalid literal for int() with base 10: '" +:+ s +:+ "'"))
  end.

End Py.
Export Py.

(** ** Queue id from the [Location] header

    The block is written twice, character for character:
    [server.py] lines 163-172 and [jenkins_api_fix.py] lines 221-230.
    [location] is [response.headers.get('Location')]. *)

Definition queue_id_of_location (location : option string) : result (option Z) :=
  match location with
  | None => Ok None
  | Some location =>
      if bool_decide (location = "") then Ok None
      else
        let queue_parts := split "/" (rstrip "/" location) in
        match queue_parts with
        | [] => Ok None
        | _ =>
            match getitem queue_parts (-2) with
            | Raise e => Raise e
            | Ok segment =>
                if bool_decide (segment = "item") then
                  match getitem queue_parts (-1) with
                  | Raise e => Raise e
                  | Ok last =>
                      match int_of_str last with
                      | Ok n => Ok (Some n)
                      | Raise (ValueError _) => Ok None      (* except ValueError: pass *)
                      | Raise e => Raise e
                      end
                  end
                else Ok None
            end
        end
  end.


(** ** State and exceptions

    A computation runs in a world [W], may change it, and either returns
    or raises.  The world reached when an exception is raised is kept, as
    in Python: what was done before the [raise] stays done. *)

Definition M (W A : Type) : Type := W → result A * W.

Definition ret {W A} (a : A) : M W A := λ w, (Ok a, w).

Definition raise {W A} (e : exn) : M W A := λ w, (Raise e, w).

Definition bind {W A B} (m : M W A) (k : A → M W B) : M W B :=
  λ w, match m w with
       | (Ok a, w') => k a w'
       | (Raise e, w') => (Raise e, w')
       end.

(** [try: body  except Exception as e: handler e] *)
Definition try_except {W A} (body : M W A) (handler : exn → M W A) : M W A :=
  λ w, match body w with
       | (Ok a, w') => (Ok a, w')
       | (Raise e, w') => handler e w'
       end.

(** A pure step that may raise. *)
Definition lift {W A} (r : result A) : M W A := λ w, (r, w).

Notation "'let*' x ':=' m 'in' k" := (bind m (λ x, k))
  (at level 10, x pattern, m at level 100, k at level 200).
Notation "m ';;' k" := (bind m (λ _, k))
  (at level 100, k at level 200, right associativity).

(** ** The outside world *)

Record Response := mkResponse {
  status_code : Z;
  text : string;
  resp_headers : gmap string string;     (* [response.headers], keyed by lower-cased name *)
  resp_cookies : gmap string string;     (* cookies set during the exchange *)
  json : option (gmap string jval);      (* [response.json()], an object of scalars;
                                            [None]: the body does not parse *)
}.

(** [response.headers.get(name)]: the mapping is case-insensitive. *)
Definition headers_get (r : Response) (name : string) : option string :=
  resp_headers r !! lower name.

(** [response.json()] *)
Definition response_json (r : Response) : result (gmap string jval) :=
  match json r with
  | Some o => Ok o
  | None => Raise (ValueError "Expecting value: line 1 column 1 (char 0)")
  end.

Global Instance jval_eq_dec : EqDecision jval.
Proof. solve_decision. Defined.

Global Instance jval_countable : Countable jval.
Proof.
  refine (inj_countable'
    (λ v, match v with
          | JNull => inl ()
          | JInt z => inr (inl z)
          | JStr s => inr (inr s)
          end)
    (λ c, match c with
          | inl _ => JNull
          | inr (inl z) => JInt z
          | inr (inr s) => JStr s
          end) _).
  by intros [].
Defined.

(** The [jenkins.Jenkins] object, as far as the code looks into it.
    [auth = None] stands for any value of the attribute that cannot be
    indexed. *)
Record Client := mkClient {
  server : string;
  auth : option (string * string);
}.

(** The object returned by [client.get_job_info]: its scalar-valued keys
    and, when present, the nested ["lastBuild"] object. *)
Record JobInfo := mkJobInfo {
  job_keys : gmap string jval;
  job_lastBuild : option (gmap string jval);
}.

Definition job_info_truthy (j : JobInfo) : bool :=
  dict_nonempty (job_keys j) || bool_decide (job_lastBuild j ≠ None).

(** [job_info["lastBuild"]["number"]] *)
Definition job_lastBuild_number (j : JobInfo) : result jval :=
  match job_lastBuild j with
  | Some last_build => dict_getitem last_build "number"
  | None =>
      match job_keys j !! "lastBuild" with
      | Some _ => Raise (TypeError "object is not subscriptable")
      | None => Raise (KeyError "lastBuild")
      end
  end.

(** Every call that leaves the process, with its arguments. *)
Inductive Call :=
| SessionGet (cookies : gmap string string) (url : string) (auth : string * string)
| SessionPost (cookies : gmap string string) (url : string)
    (headers : gmap string string) (auth : string * string) (params : option pyval)
| SessionRequest (cookies : gmap string string) (method url : string)
    (auth : string * string) (headers : gmap jval jval) (params data : pyval)
| ClientGetJobs (c : Client)
| ClientGetJobInfo (c : Client) (name : pyval)
| ClientBuildJob (c : Client) (name : pyval) (parameters : pyval)
| ClientGetBuildInfo (c : Client) (name : pyval) (number : pyval).

Definition is_http (c : Call) : bool :=
  match c with
  | SessionGet _ _ _ | SessionPost _ _ _ _ _ | SessionRequest _ _ _ _ _ _ _ => true
  | _ => false
  end.

(** The part of an HTTP request that a retry must repeat: everything but
    the crumb header and the cookie jar. *)
Definition request_line (c : Call) : option (string * string * (string * string) * pyval * pyval) :=
  match c with
  | SessionRequest _ method url auth _ params data => Some (method, url, auth, params, data)
  | _ => None
  end.

(** The answers of the outside world: a deterministic machine over a state
    [St] of its own.  [urljoin] and the client constructor are pure library
    functions and are left open as well. *)
Record Backend (St : Type) := mkBackend {
  urljoin : string → string → string;
  jenkins_Jenkins : string → string → string → Client;
  http : St → Call → result Response * St;
  get_jobs : St → Client → result pyval * St;
  get_job_info : St → Client → pyval → result JobInfo * St;
  build_job : St → Client → pyval → pyval → result (option Z) * St;
  get_build_info : St → Client → pyval → pyval → result pyval * St;
}.
Arguments urljoin {St} _ _ _.
Arguments jenkins_Jenkins {St} _ _ _ _.
Arguments http {St} _ _ _.
Arguments get_jobs {St} _ _ _.
Arguments get_job_info {St} _ _ _ _.
Arguments build_job {St} _ _ _ _ _.
Arguments get_build_info {St} _ _ _ _ _.

Inductive level := INFO | WARNING | ERROR.

(** The world of a run: the backend's state, the calls made so far (oldest
    first), the log, and the one mutable object the code shares ([store]:
    the lifespan context for the tools, the [requests] session's cookie jar
    for the script). *)
Record World (St S : Type) := mkWorld {
  net : St;
  calls : list Call;
  logged : list (level * string);
  store : S;
}.
Arguments mkWorld {St S} _ _ _ _.
Arguments net {St S} _.
Arguments calls {St S} _.
Arguments logged {St S} _.
Arguments store {St S} _.

Section Primitives.
Context {St S : Type}.

(** Make a call: the backend answers and moves on, the call is recorded. *)
Definition call {A} (c : Call) (answer : St → result A * St) : M (World St S) A :=
  λ w, let '(r, st') := answer (net w) in
       (r, mkWorld st' (calls w ++ [c]) (logged w) (store w)).

Definition log (l : level) (msg : string) : M (World St S) () :=
  λ w, (Ok (), mkWorld (net w) (calls w) (logged w ++ [(l, msg)]) (store w)).

Definition get_store : M (World St S) S := λ w, (Ok (store w), w).

Definition put_store (s : S) : M (World St S) () :=
  λ w, (Ok (), mkWorld (net w) (calls w) (logged w) s).
End Primitives.

Definition dquote : string := String (ascii_of_nat 34) EmptyString.

(** [s.split(sep, 1)]: cut at the first separator, if there is one. *)
Fixpoint split_once (sep : ascii) (s : string) : list string :=
  match s with
  | EmptyString => [EmptyString]
  | String a rest =>
      if bool_decide (a = sep) then [EmptyString; rest]
      else match split_once sep rest with
           | first :: others => String a first :: others
           | [] => [String a EmptyString]
           end
  end.

(** [a, b = l] *)
Definition unpack2 {A} (l : list A) : result (A * A) :=
  match l with
  | [a; b] => Ok (a, b)
  | [] => Raise (ValueError "not enough values to unpack (expected 2, got 0)")
  | [_] => Raise (ValueError "not enough values to unpack (expected 2, got 1)")
  | _ => Raise (ValueError "too many values to unpack (expected 2)")
  end.

(** The record returned by both [trigger_build] functions. *)
Record BuildTriggerResult := mkResult {
  status : string;
  job_name : string;
  queue_id : option Z;
  build_number : jval;
  job_url : jval;
  build_url : string;
}.

(** ** [src/jenkins_mcp/server.py] *)

Module Server.

Record JenkinsContext := mkContext {
  client : Client;
  crumb_data : option (gmap string string);
  session_cookies : option (gmap string string);
}.

Section WithBackend.
Context {St : Type} (B : Backend St).

(** The relative URL of line 30. *)
Definition crumb_path : string :=
  "crumbIssuer/api/xml?xpath=concat(//crumbRequestField," +:+ dquote +:+ ":"
    +:+ dquote +:+ ",//crumb)".

(** Lines 20-53.  The session is fresh, so its jar holds, after the
    exchange, exactly the cookies the exchange set. *)
Definition get_jenkins_crumb {S} (jenkins_url username password : string)
  : M (World St S) (option (gmap string string) * option (gmap string string)) :=
  try_except
    (let crumb_url := urljoin B jenkins_url crumb_path in
     let jar : gmap string string := ∅ in
     let* response :=
       call (SessionGet jar crumb_url (username, password))
            (λ st, http B st (SessionGet jar crumb_url (username, password))) in
     let jar := resp_cookies response ∪ jar in
     if negb (status_code response =? 200) then
       log WARNING ("Failed to get Jenkins crumb: HTTP " +:+ pretty (status_code response)) ;;
       ret (None, None)
     else if negb (str_contains ":" (text response)) then
       log WARNING ("Invalid crumb response format: " +:+ text response) ;;
       ret (None, None)
     else
       let* (field, value) := lift (unpack2 (split_once ":" (text response))) in
       let crumb_data : gmap string string := {[ field := value ]} in
       let session_cookies := jar in
       log INFO ("Got Jenkins crumb: " +:+ field +:+ "=<masked>") ;;
       ret (Some crumb_data, Some session_cookies))
    (λ e,
       log ERROR ("Error getting Jenkins crumb: " +:+ str_of_exn e) ;;
       ret (None, None)).

(** The [JENKINS_USE_API_TOKEN] switch, line 66. *)
Definition use_token_of (environ : gmap string string) : bool :=
  bool_decide (lower (default "false" (environ !! "JENKINS_USE_API_TOKEN")) = "true").

(** Lines 56-80, up to the [yield]: the context handed to every tool.
    [environ] is [os.environ] once [dotenv] has loaded the [.env] file. *)
Definition jenkins_lifespan {S} (environ : gmap string string)
  : M (World St S) JenkinsContext :=
  let* jenkins_url := lift (dict_getitem environ "JENKINS_URL") in
  let* username := lift (dict_getitem environ "JENKINS_USERNAME") in
  let* password := lift (dict_getitem environ "JENKINS_PASSWORD") in
  let use_token := use_token_of environ in
  let client := jenkins_Jenkins B jenkins_url username password in
  let* (crumb_data, session_cookies) :=
    (if negb use_token then get_jenkins_crumb jenkins_url username password
     else ret (None, None)) in
  ret (mkContext client crumb_data session_cookies).

(** Lines 86-90. *)
Definition list_jobs : M (World St JenkinsContext) pyval :=
  let* lifespan_context := get_store in
  let client := client lifespan_context in
  call (ClientGetJobs client) (λ st, get_jobs B st client).

(** The POST of lines 134-158: URL, cookie jar, crumb header, and the
    parameters when there are any. *)
Definition post_call (jenkins_url : string) (auth : string * string)
    (crumb_data session_cookies : gmap string string) (name : string) (parameters : pyval)
  : Call :=
  let build_url := urljoin B jenkins_url ("job/" +:+ name +:+ "/build") in
  let build_url :=
    if truthy parameters
    then urljoin B jenkins_url ("job/" +:+ name +:+ "/buildWithParameters")
    else build_url in
  let jar : gmap string string :=
    map_fold (λ cookie_name cookie_value jar, <[cookie_name := cookie_value]> jar)
             ∅ session_cookies in
  let headers := crumb_data in
  if truthy parameters
  then SessionPost jar build_url headers auth (Some parameters)
  else SessionPost jar build_url headers auth None.

(** The custom request of lines 133-181: [Ok r] is the [return] of line
    174, an exception is whatever the block raises. *)
Definition custom_request (client : Client) (crumb_data session_cookies : gmap string string)
    (name : string) (parameters : pyval) (job_info : JobInfo) (next_build_number : jval)
  : M (World St JenkinsContext) BuildTriggerResult :=
  let jenkins_url := server client in
  let* auth :=
    lift (match auth client with
          | Some (user, secret) => Ok (user, secret)
          | None => Raise (TypeError "'NoneType' object is not subscriptable")
          end) in
  let request := post_call jenkins_url auth crumb_data session_cookies name parameters in
  let* response := call request (λ st, http B st request) in
  if negb ((status_code response =? 200) || (status_code response =? 201)) then
    raise (ValueError ("Failed to trigger build: HTTP " +:+ pretty (status_code response)))
  else
    let location := headers_get response "Location" in
    let* queue_id := lift (queue_id_of_location location) in
    let* url := lift (dict_getitem (job_keys job_info) "url") in
    let* url' := lift (dict_getitem (job_keys job_info) "url") in
    ret (mkResult "triggered" name queue_id next_build_number url
           (str_of_jval url' +:+ str_of_jval next_build_number +:+ "/")).

(** Lines 93-198. *)
Definition trigger_build (job_name parameters : pyval)
  : M (World St JenkinsContext) BuildTriggerResult :=
  match job_name with
  | PyStr name =>
      if negb (is_none parameters) && negb (isinstance_dict parameters) then
        raise (ValueError ("parameters must be a dictionary or None, got "
                             +:+ type_name parameters))
      else
        let* lifespan_context := get_store in
        let client := client lifespan_context in
        let crumb_data := crumb_data lifespan_context in
        let session_cookies := session_cookies lifespan_context in
        (* First verify the job exists *)
        let* job_info :=
          try_except
            (let* job_info :=
               call (ClientGetJobInfo client job_name)
                    (λ st, get_job_info B st client job_name) in
             if negb (job_info_truthy job_info) then
               raise (ValueError ("Job " +:+ name +:+ " not found"))
             else ret job_info)
            (λ e, raise (ValueError ("Error checking job " +:+ name +:+ ": "
                                       +:+ str_of_exn e))) in
        (* Then try to trigger the build *)
        try_except
          (let* next_build_number :=
             lift (dict_getitem (job_keys job_info) "nextBuildNumber") in
           let* returned :=
             match crumb_data, session_cookies with
             | Some crumb, Some cookies =>
                 if dict_nonempty crumb && dict_nonempty cookies then
                   try_except
                     (let* r := custom_request client crumb cookies name parameters
                                  job_info next_build_number in
                      ret (Some r))
                     (λ e,
                        log WARNING ("Custom build request failed, falling back: "
                                       +:+ str_of_exn e) ;;
                        ret None)
                 else ret None
             | _, _ => ret None
             end in
           match returned with
           | Some r => ret r
           | None =>
               let* queue_id :=
                 call (ClientBuildJob client job_name parameters)
                      (λ st, build_job B st client job_name parameters) in
               let* url := lift (dict_getitem (job_keys job_info) "url") in
               let* url' := lift (dict_getitem (job_keys job_info) "url") in
               ret (mkResult "triggered" name queue_id next_build_number url
                      (str_of_jval url' +:+ str_of_jval next_build_number +:+ "/"))
           end)
          (λ e, raise (ValueError ("Error triggering build for " +:+ name +:+ ": "
                                     +:+ str_of_exn e)))
  | _ => raise (ValueError ("job_name must be a string, got " +:+ type_name job_name))
  end.

(** Lines 201-217. *)
Definition get_build_status (job_name build_number : pyval)
  : M (World St JenkinsContext) pyval :=
  let* lifespan_context := get_store in
  let client := client lifespan_context in
  let* build_number :=
    if is_none build_number then
      let* job_info :=
        call (ClientGetJobInfo client job_name)
             (λ st, get_job_info B st client job_name) in
      let* number := lift (job_lastBuild_number job_info) in
      ret (pyval_of_jval number)
    else ret build_number in
  call (ClientGetBuildInfo client job_name build_number)
       (λ st, get_build_info B st client job_name build_number).

(** *** A session: the lifespan, then any sequence of tool calls

    The host keeps the yielded context as the lifespan context of every
    request, reports a tool's exception to its caller and goes on
    serving. *)

Inductive ToolCall :=
| ListJobs
| TriggerBuild (job_name parameters : pyval)
| GetBuildStatus (job_name build_number : pyval).

Definition run_tool (t : ToolCall) : M (World St JenkinsContext) () :=
  try_except
    (match t with
     | ListJobs => list_jobs ;; ret ()
     | TriggerBuild job_name parameters => trigger_build job_name parameters ;; ret ()
     | GetBuildStatus job_name build_number => get_build_status job_name build_number ;; ret ()
     end)
    (λ _, ret ()).

Fixpoint run_tools (ts : list ToolCall) : M (World St JenkinsContext) () :=
  match ts with
  | [] => ret ()
  | t :: ts' => run_tool t ;; run_tools ts'
  end.

Definition install {S} (ctx : JenkinsContext) (w : World St S) : World St JenkinsContext :=
  mkWorld (net w) (calls w) (logged w) ctx.

(** [None]: the lifespan raised, no session was started. *)
Definition session (environ : gmap string string) (ts : list ToolCall) (w : World St ())
  : option (World St JenkinsContext) :=
  match jenkins_lifespan environ w with
  | (Ok ctx, w') => Some (snd (run_tools ts (install ctx w')))
  | (Raise _, _) => None
  end.
End WithBackend.

End Server.

(** ** [src/scripts/jenkins_api_fix.py]

    The shared object is the [requests] session: its cookie jar is the
    [store] of the world.  ([list_jobs] and [main] of the script are not
    embedded.) *)

Module Script.

Section WithBackend.
Context {St : Type} (B : Backend St).

Local Abbreviation W := (World St (gmap string string)).

(** [session.get] and [session.request]: the jar goes out with the
    request and takes in the cookies of the response. *)
Definition session_send (request : gmap string string → Call) : M W Response :=
  let* jar := get_store in
  let* response := call (request jar) (λ st, http B st (request jar)) in
  put_store (resp_cookies response ∪ jar) ;;
  ret response.

(** Lines 21-57. *)
Definition get_jenkins_crumb (jenkins_url username password : string)
  : M W (option (gmap jval jval)) :=
  try_except
    (let crumb_url := urljoin B jenkins_url "crumbIssuer/api/json" in
     let* response := session_send (λ jar, SessionGet jar crumb_url (username, password)) in
     if negb (status_code response =? 200) then
       log WARNING ("Failed to get Jenkins crumb: HTTP " +:+ pretty (status_code response)) ;;
       ret None
     else
       let* crumb_data := lift (response_json response) in
       if negb (dict_nonempty crumb_data)
          || bool_decide (crumb_data !! "crumbRequestField" = None)
          || bool_decide (crumb_data !! "crumb" = None) then
         log WARNING ("Invalid crumb response format: " +:+ text response) ;;
         ret None
       else
         let* field := lift (dict_getitem crumb_data "crumbRequestField") in
         let* value := lift (dict_getitem crumb_data "crumb") in
         let crumb_header : gmap jval jval := {[ field := value ]} in
         let* field' := lift (dict_getitem crumb_data "crumbRequestField") in
         log INFO ("Got Jenkins crumb: " +:+ str_of_jval field' +:+ "=<masked>") ;;
         ret (Some crumb_header))
    (λ e,
       log ERROR ("Error getting Jenkins crumb: " +:+ str_of_exn e) ;;
       ret None).

(** Lines 91-95: the request headers are the crumb, when there is one. *)
Definition crumb_headers (crumb : option (gmap jval jval)) : gmap jval jval :=
  let headers : gmap jval jval := ∅ in
  match crumb with
  | Some c => if dict_nonempty c then c ∪ headers else headers
  | None => headers
  end.

(** Line 111: the body of a 403 names the crumb. *)
Definition mentions_crumb (body : string) : bool :=
  str_contains "No valid crumb" body || str_contains "Invalid crumb" body.

(** Lines 60-134, with the recursive call abstracted as [self]. *)
Definition make_jenkins_request_step
    (self : string → string → string → string → string → option (gmap jval jval)
            → pyval → pyval → bool → M W Response)
    (jenkins_url username password method path : string)
    (crumb : option (gmap jval jval)) (params data : pyval)
    (retry_on_auth_failure : bool) : M W Response :=
  let url := urljoin B jenkins_url path in
  let headers := crumb_headers crumb in
  try_except
    (let* response :=
       session_send (λ jar, SessionRequest jar method url (username, password)
                              headers params data) in
     let* returned :=
       if (status_code response =? 403)
          && retry_on_auth_failure
          && mentions_crumb (text response) then
         log INFO "Crumb expired, refreshing and retrying request" ;;
         let* new_crumb := get_jenkins_crumb jenkins_url username password in
         if dict_truthy new_crumb then
           let* r := self jenkins_url username password method path new_crumb
                       params data false in
           ret (Some r)
         else ret None
       else ret None in
     match returned with
     | Some r => ret r
     | None => ret response
     end)
    (λ e,
       log ERROR ("Error making Jenkins request: " +:+ str_of_exn e) ;;
       raise e).

(** The function calls itself with [retry_on_auth_failure=False] only,
    and a call with [False] does not reach the recursive call: two levels
    are the whole recursion ([make_jenkins_request_unfold] below proves
    the recursive equation of the source). *)
Definition make_jenkins_request :=
  make_jenkins_request_step
    (make_jenkins_request_step
       (λ _ _ _ _ _ _ _ _ _,
          raise (RecursionError "maximum recursion depth exceeded"))).

(** Lines 162-239.  [None] is the [return None] of the two failure
    branches. *)
Definition trigger_build (jenkins_url username password job_name : string)
    (parameters : pyval) (crumb : option (gmap jval jval))
  : M W (option BuildTriggerResult) :=
  let* response :=
    make_jenkins_request jenkins_url username password "GET"
      ("job/" +:+ job_name +:+ "/api/json") crumb PyNone PyNone true in
  if negb (status_code response =? 200) then
    log ERROR ("Failed to get job info: HTTP " +:+ pretty (status_code response)) ;;
    ret None
  else
    let* job_info := lift (response_json response) in
    let next_build_number := default (JInt 0) (job_info !! "nextBuildNumber") in
    let endpoint :=
      if truthy parameters then "job/" +:+ job_name +:+ "/buildWithParameters"
      else "job/" +:+ job_name +:+ "/build" in
    let* response :=
      make_jenkins_request jenkins_url username password "POST" endpoint crumb
        parameters PyNone true in
    if negb ((status_code response =? 200) || (status_code response =? 201)
             || (status_code response =? 302)) then
      log ERROR ("Failed to trigger build: HTTP " +:+ pretty (status_code response)
                   +:+ ", " +:+ text response) ;;
      ret None
    else
      let location := headers_get response "Location" in
      let* queue_id := lift (queue_id_of_location location) in
      ret (Some (mkResult "triggered" job_name queue_id next_build_number
                   (default JNull (job_info !! "url"))
                   (str_of_jval (default JNull (job_info !! "url"))
                      +:+ str_of_jval next_build_number +:+ "/"))).
End WithBackend.

End Script.

(** ** A scripted backend, set up as the repository's tests set up theirs

    HTTP replies are queued and handed out in order (an exhausted queue
    refuses the connection); the client answers as a [MagicMock] does, with
    fixed return values. *)

Module Mock.

(** [urljoin] for a base of the form [http://host:port] and a relative
    path. *)
Definition urljoin_root (base path : string) : string := base +:+ "/" +:+ path.

Definition backend (job_info : result JobInfo) (queue_item : result (option Z))
  : Backend (list (result Response)) :=
  {| urljoin := urljoin_root;
     jenkins_Jenkins := λ url username password, mkClient url (Some (username, password));
     http := λ st _,
       match st with
       | r :: rest => (r, rest)
       | [] => (Raise (RequestException "Connection refused"), [])
       end;
     get_jobs := λ st _, (Ok (PyList []), st);
     get_job_info := λ st _ _, (job_info, st);
     build_job := λ st _ _ _, (queue_item, st);
     get_build_info := λ st _ _ _, (Ok (PyDict []), st) |}.

Definition world {S} (replies : list (result Response)) (s : S)
  : World (list (result Response)) S :=
  mkWorld replies [] [] s.

Definition reply (code : Z) (body : string) (headers cookies : gmap string string)
  : result Response :=
  Ok (mkResponse code body headers cookies None).

Definition test_client : Client :=
  mkClient "http://localhost:8080" (Some ("testuser", "testpassword")).

Definition test_job_info : JobInfo :=
  mkJobInfo {[ "name" := JStr "test-job";
               "url" := JStr "http://localhost:8080/job/test-job/";
               "nextBuildNumber" := JInt 42 ]} None.

(** The lifespan context of [tests/test_auth_password.py]. *)
Definition password_context : Server.JenkinsContext :=
  Server.mkContext test_client
    (Some {[ "Jenkins-Crumb" := "test-crumb-value" ]})
    (Some {[ "JSESSIONID" := "test-session-id" ]}).

(** The lifespan context of [tests/test_auth_token.py]. *)
Definition token_context : Server.JenkinsContext :=
  Server.mkContext test_client None None.

Definition test_backend := backend (Ok test_job_info) (Ok (Some 123)).

End Mock.


(** ** Vocabulary of the statements *)








(** [quiet I P m]: started in a world whose shared object satisfies [I],
    [m] leaves that object as it is and makes only calls that satisfy [P]
    (whether it returns or raises). *)
Definition quiet {St S A} (I : S → Prop) (P : Call → Prop) (m : M (World St S) A) : Prop :=
  ∀ w, I (store w) →
    store (m w).2 = store w ∧ ∃ new, calls (m w).2 = calls w ++ new ∧ Forall P new.

(** A call that does not go through [requests]. *)
Definition no_http (c : Call) : Prop := is_http c = false.

(** The condition of line 131 fails: the crumb or the cookies are [None]
    or empty. *)
Definition lacks_crumb (ctx : Server.JenkinsContext) : Prop :=
  dict_truthy (Server.crumb_data ctx) && dict_truthy (Server.session_cookies ctx) = false.

(** The calls of one [make_jenkins_request]: the request, then possibly a
    crumb fetch, then possibly the request once more. *)
Definition at_most_one_retry (first : Call) (fetch : Call → Prop) (made : list Call) : Prop :=
  made = [first]
  ∨ (∃ g, fetch g ∧ made = [first; g])
  ∨ (∃ g second, fetch g ∧ request_line second = request_line first
                 ∧ made = [first; g; second]).

(** ** Proof steps *)

(** Push an append through the constructors of its first argument
    ([simpl] leaves [+:+] alone). *)
Ltac app_simpl :=
  repeat match goal with
         | |- context [String ?x ?a +:+ ?b] =>
             change (String x a +:+ b) with (String x (a +:+ b))
         | |- context [EmptyString +:+ ?b] => change (EmptyString +:+ b) with b
         end.

(** Run a computation on the world at hand. *)
Ltac run :=
  unfold bind, try_except, call, lift, ret, raise, get_store, put_store, log; simpl.

(** * Verification *)

(** ** Strings *)


Lemma append_nil_r (a : string) : a +:+ "" = a.
Proof. induction a as [|x a IH]; app_simpl; [done | by rewrite IH]. Qed.

Lemma prefix_append (n rest : string) : String.prefix n (n +:+ rest) = true.
Proof.
  induction n as [|x n IH]; app_simpl; simpl; [by destruct rest |].
  destruct (ascii_dec x x); [done | congruence].
Qed.

Lemma prefix_inv (n s : string) :
  String.prefix n s = true → ∃ rest, s = n +:+ rest.
Proof.
  revert s. induction n as [|x n IH]; intros s H.
  - by exists s.
  - destruct s as [|y s]; simpl in H; [done |].
    destruct (ascii_dec x y) as [->|]; [| done].
    destruct (IH _ H) as [rest ->]. by exists rest.
Qed.

(** [str_contains] is Python's [in]: some occurrence of the needle. *)
Lemma str_contains_spec (needle hay : string) :
  str_contains needle hay = true ↔ ∃ before after, hay = before +:+ needle +:+ after.
Proof.
  split.
  - induction hay as [|y hay IH]; cbn [str_contains]; intros H.
    + apply orb_true_iff in H as [H | H]; [| done].
      apply prefix_inv in H as [rest ->]. by exists "", rest.
    + apply orb_true_iff in H as [H | H].
      * apply prefix_inv in H as [rest ->]. by exists "", rest.
      * destruct (IH H) as (b & a & ->). by exists (String y b), a.
  - intros (before & after & ->).
    induction before as [|x before IH]; app_simpl.
    + pose proof (prefix_append needle after) as H.
      destruct (needle +:+ after); cbn [str_contains]; by rewrite H.
    + cbn [str_contains]. rewrite IH. apply orb_true_r.
Qed.



















(** ** The queue id *)






(** The guard [queue_parts and ...] does not protect the index: a header
    with a single segment raises [IndexError]. *)
Lemma queue_id_single_segment :
  queue_id_of_location (Some "queued")
  = Raise (IndexError "list index out of range").
Proof. reflexivity. Qed.

(** ** Frame rules for [quiet] *)

Section Quiet.
Context {St S : Type} (I : S → Prop) (P : Call → Prop).

Lemma quiet_ret {A} (a : A) : quiet (St:=St) I P (ret a).
Proof. intros w _. split; [done |]. exists []. by rewrite app_nil_r. Qed.

Lemma quiet_raise {A} (e : exn) : quiet (St:=St) (A:=A) I P (raise e).
Proof. intros w _. split; [done |]. exists []. by rewrite app_nil_r. Qed.

Lemma quiet_lift {A} (r : result A) : quiet (St:=St) I P (lift r).
Proof. intros w _. split; [done |]. exists []. by rewrite app_nil_r. Qed.

Lemma quiet_log (l : level) (msg : string) : quiet (St:=St) I P (log l msg).
Proof. intros w _. split; [done |]. exists []. by rewrite app_nil_r. Qed.

Lemma quiet_get_store : quiet (St:=St) I P get_store.
Proof. intros w _. split; [done |]. exists []. by rewrite app_nil_r. Qed.

Lemma quiet_call {A} (c : Call) (answer : St → result A * St) :
  P c → quiet I P (call c answer).
Proof.
  intros Hc w _. unfold call. destruct (answer (net w)) as [r st'].
  split; [done |]. exists [c]. split; [done |]. by constructor.
Qed.

Lemma quiet_bind {A B} (m : M (World St S) A) (k : A → M (World St S) B) :
  quiet I P m → (∀ a, quiet I P (k a)) → quiet I P (bind m k).
Proof.
  intros Hm Hk w HI. unfold bind.
  destruct (Hm w HI) as (Hs & new & Hc & Hnew).
  destruct (m w) as [[a|e] w1]; simpl in *; [| by eauto].
  destruct (Hk a w1) as (Hs' & new' & Hc' & Hnew'); [by rewrite Hs |].
  split; [congruence |].
  exists (new ++ new'). rewrite Hc', Hc, app_assoc. split; [done |].
  by apply Forall_app.
Qed.

Lemma quiet_try_except {A} (body : M (World St S) A) (handler : exn → M (World St S) A) :
  quiet I P body → (∀ e, quiet I P (handler e)) → quiet I P (try_except body handler).
Proof.
  intros Hm Hk w HI. unfold try_except.
  destruct (Hm w HI) as (Hs & new & Hc & Hnew).
  destruct (body w) as [[a|e] w1]; simpl in *; [by eauto |].
  destruct (Hk e w1) as (Hs' & new' & Hc' & Hnew'); [by rewrite Hs |].
  split; [congruence |].
  exists (new ++ new'). rewrite Hc', Hc, app_assoc. split; [done |].
  by apply Forall_app.
Qed.

(** Reading the shared object: what follows may rely on what was read. *)
Lemma quiet_read {B} (k : S → M (World St S) B) :
  (∀ s, I s → quiet (λ s', s' = s) P (k s)) → quiet I P (bind get_store k).
Proof. intros Hk w HI. unfold bind, get_store. by apply (Hk (store w)). Qed.
End Quiet.

Ltac quiet_step :=
  first
    [ apply quiet_ret | apply quiet_raise | apply quiet_lift | apply quiet_log
    | apply quiet_get_store
    | apply quiet_call; done
    | apply quiet_bind; [| intros ?]
    | apply quiet_try_except; [| intros ?]
    | match goal with
      | |- quiet _ _ (if ?b then _ else _) => destruct b
      | |- quiet _ _ (match ?x with _ => _ end) => destruct x
      | |- quiet _ _ (let '(_, _) := ?x in _) => destruct x
      end ].

(** ** [server.py]: the shared context is only read *)

Section ServerFrame.
Context {St : Type} (B : Backend St).

Lemma custom_request_quiet I c crumb cookies name parameters info number :
  quiet I (λ _, True) (Server.custom_request B c crumb cookies name parameters info number).
Proof. unfold Server.custom_request. repeat quiet_step. Qed.

Lemma trigger_build_quiet (job_name parameters : pyval) :
  quiet (λ _, True) (λ _, True) (Server.trigger_build B job_name parameters).
Proof.
  unfold Server.trigger_build. repeat quiet_step; apply custom_request_quiet.
Qed.
End ServerFrame.

(** ** [server.py]: runs of [trigger_build] *)

Section ServerRuns.
Context {St : Type} (B : Backend St).

Implicit Types (w : World St Server.JenkinsContext) (c : Client) (info : JobInfo).

(** The custom request raises when the POST raises or is answered with a
    status other than 200 and 201; the POST has been made. *)
Lemma custom_request_fails w c crumb cookies name parameters info n user secret reply st2 :
  auth c = Some (user, secret) →
  http B (net w) (Server.post_call B (server c) (user, secret) crumb cookies name parameters)
    = (reply, st2) →
  (∀ resp, reply = Ok resp → status_code resp ≠ 200 ∧ status_code resp ≠ 201) →
  ∃ e, Server.custom_request B c crumb cookies name parameters info n w
       = (Raise e,
          mkWorld st2
            (calls w ++ [Server.post_call B (server c) (user, secret) crumb cookies
                           name parameters])
            (logged w) (store w)).
Proof.
  intros Hauth Hpost Hstatus. unfold Server.custom_request. run.
  rewrite Hauth. simpl. rewrite Hpost.
  destruct reply as [resp|e]; [| by eauto].
  destruct (Hstatus resp eq_refl) as [H200%Z.eqb_neq H201%Z.eqb_neq].
  rewrite H200, H201. simpl. eauto.
Qed.


(** Without both a crumb and cookies the build goes through the client. *)
Lemma trigger_build_client_only w name parameters info st1 n :
  dict_truthy (Server.crumb_data (store w))
    && dict_truthy (Server.session_cookies (store w)) = false →
  is_none parameters || isinstance_dict parameters = true →
  get_job_info B (net w) (Server.client (store w)) (PyStr name) = (Ok info, st1) →
  job_info_truthy info = true →
  job_keys info !! "nextBuildNumber" = Some n →
  ∃ r w', Server.trigger_build B (PyStr name) parameters w = (r, w')
    ∧ calls w' = calls w ++ [ClientGetJobInfo (Server.client (store w)) (PyStr name);
                             ClientBuildJob (Server.client (store w)) (PyStr name) parameters]
    ∧ ∀ q st2 u,
        build_job B st1 (Server.client (store w)) (PyStr name) parameters = (Ok q, st2) →
        job_keys info !! "url" = Some u →
        r = Ok (mkResult "triggered" name q n u (str_of_jval u +:+ str_of_jval n +:+ "/")).
Proof.
  intros Hno Hty Hinfo Htruthy Hn.
  destruct w as [st cs lg [cl cd sc]]; simpl in *.
  unfold Server.trigger_build.
  replace (negb (is_none parameters) && negb (isinstance_dict parameters)) with false
    by (by destruct parameters).
  run. rewrite Hinfo, Htruthy. simpl.
  unfold dict_getitem. rewrite Hn.
  assert (Hskip :
    match cd with
    | Some crumb =>
        match sc with
        | Some cookies => dict_nonempty crumb && dict_nonempty cookies
        | None => false
        end
    | None => false
    end = false).
  { by destruct cd, sc. }
  destruct cd as [crumb|]; [destruct sc as [cookies|] |]; simpl in Hskip;
    rewrite ?Hskip; simpl.
  all: destruct (build_job B st1 cl (PyStr name) parameters) as [[q|e] st2] eqn:Hq; simpl.
  all: rewrite <- ?app_assoc; simpl.
  all: destruct (job_keys info !! "url") as [u|] eqn:Hu; simpl.
  all: eexists _, _; split; [reflexivity |]; split; [done |].
  all: intros q' st2' u' [= <- <-] [= <-]; done.
Qed.

(** With a crumb and cookies, a POST that raises or is answered with a
    status other than 200 and 201 sends the build through the client. *)
Lemma trigger_build_falls_back w name parameters crumb cookies user secret info n u
    st1 reply st2 q st3 :
  Server.crumb_data (store w) = Some crumb → crumb ≠ ∅ →
  Server.session_cookies (store w) = Some cookies → cookies ≠ ∅ →
  auth (Server.client (store w)) = Some (user, secret) →
  is_none parameters || isinstance_dict parameters = true →
  get_job_info B (net w) (Server.client (store w)) (PyStr name) = (Ok info, st1) →
  job_info_truthy info = true →
  job_keys info !! "nextBuildNumber" = Some n →
  job_keys info !! "url" = Some u →
  http B st1 (Server.post_call B (server (Server.client (store w))) (user, secret)
                crumb cookies name parameters) = (reply, st2) →
  (∀ resp, reply = Ok resp → status_code resp ≠ 200 ∧ status_code resp ≠ 201) →
  build_job B st2 (Server.client (store w)) (PyStr name) parameters = (Ok q, st3) →
  ∃ w', Server.trigger_build B (PyStr name) parameters w
        = (Ok (mkResult "triggered" name q n u (str_of_jval u +:+ str_of_jval n +:+ "/")), w')
    ∧ calls w' = calls w ++
        [ClientGetJobInfo (Server.client (store w)) (PyStr name);
         Server.post_call B (server (Server.client (store w))) (user, secret)
           crumb cookies name parameters;
         ClientBuildJob (Server.client (store w)) (PyStr name) parameters]
    ∧ net w' = st3 ∧ store w' = store w.
Proof.
  intros Hcd Hcrumb Hsc Hcookies Hauth Hty Hinfo Htruthy Hn Hu Hpost Hstatus Hq.
  destruct w as [st cs lg [cl cd sc]]; simpl in *. subst cd sc.
  unfold Server.trigger_build.
  replace (negb (is_none parameters) && negb (isinstance_dict parameters)) with false
    by (by destruct parameters).
  run. rewrite Hinfo, Htruthy. simpl.
  unfold dict_getitem. rewrite Hn.
  unfold dict_nonempty. rewrite !bool_decide_eq_true_2 by done. simpl.
  edestruct (custom_request_fails
               (mkWorld st1 (cs ++ [ClientGetJobInfo cl (PyStr name)]) lg
                  (Server.mkContext cl (Some crumb) (Some cookies)))
               cl crumb cookies name parameters info n) as [e He]; [done.. |].
  rewrite He. simpl. rewrite Hq. simpl. rewrite Hu.
  eexists. split; [reflexivity |]. simpl. by rewrite <- !app_assoc.
Qed.


End ServerRuns.

(** ** [server.py]: the crumb provider *)




(** ** [server.py]: the claims about [trigger_build] *)

(** C10.  [trigger_build] leaves the lifespan context as it found it,
    whatever its arguments and whether it returns or raises. *)
Theorem trigger_build_keeps_context {St : Type} (B : Backend St)
    (job_name parameters : pyval) (w : World St Server.JenkinsContext) :
  store (Server.trigger_build B job_name parameters w).2 = store w
  ∧ Server.crumb_data (store (Server.trigger_build B job_name parameters w).2)
    = Server.crumb_data (store w)
  ∧ Server.session_cookies (store (Server.trigger_build B job_name parameters w).2)
    = Server.session_cookies (store w).
Proof.
  destruct (trigger_build_quiet B job_name parameters w I) as [Hstore _].
  by rewrite Hstore.
Qed.

(** C4 (amended).  When [job_name] is not a string, or [parameters] is
    neither [None] nor a dictionary, [trigger_build] raises [ValueError]
    and the world is untouched: no call has been made. *)
Theorem trigger_build_checks_types {St : Type} (B : Backend St)
    (job_name parameters : pyval) (w : World St Server.JenkinsContext) :
  isinstance_str job_name = false
  ∨ (is_none parameters = false ∧ isinstance_dict parameters = false) →
  ∃ msg, Server.trigger_build B job_name parameters w = (Raise (ValueError msg), w).
Proof.
  intros [Hname | [Hnone Hdict]]; unfold Server.trigger_build.
  - destruct job_name; try done; by eexists.
  - destruct job_name; try (by eexists).
    rewrite Hnone, Hdict. by eexists.
Qed.

Lemma trigger_build_checks_types_witness :
  ∃ msg,
    Server.trigger_build Mock.test_backend (PyInt 7) PyNone
      (Mock.world [] Mock.password_context)
    = (Raise (ValueError msg), Mock.world [] Mock.password_context).
Proof.
  exact (trigger_build_checks_types Mock.test_backend (PyInt 7) PyNone
           (Mock.world [] Mock.password_context) (or_introl eq_refl)).
Defined.

(** C4 as stated fails: an empty job name, and parameters whose values are
    not strings, pass the checks; the job is looked up and the build is
    submitted. *)
Lemma trigger_build_checks_counterexample :
  (Server.trigger_build Mock.test_backend (PyStr "") PyNone
     (Mock.world [] Mock.token_context)).1
  = Ok (mkResult "triggered" "" (Some 123) (JInt 42)
          (JStr "http://localhost:8080/job/test-job/")
          "http://localhost:8080/job/test-job/42/")
  ∧ calls (Server.trigger_build Mock.test_backend (PyStr "") PyNone
             (Mock.world [] Mock.token_context)).2
    = [ClientGetJobInfo Mock.test_client (PyStr "");
       ClientBuildJob Mock.test_client (PyStr "") PyNone]
  ∧ calls (Server.trigger_build Mock.test_backend (PyStr "test-job")
             (PyDict [(PyStr "retries", PyInt 3)])
             (Mock.world [] Mock.token_context)).2
    = [ClientGetJobInfo Mock.test_client (PyStr "test-job");
       ClientBuildJob Mock.test_client (PyStr "test-job")
         (PyDict [(PyStr "retries", PyInt 3)])].
Proof. by vm_compute. Qed.

(** C6.  In a session with a crumb and cookies, when the POST of the
    custom request is answered with HTTP 500 or raises, [trigger_build]
    submits the build through the client and returns the same record:
    [build_number] is the [nextBuildNumber] read before the POST, and
    [queue_id] is what [client.build_job] returned. *)
Theorem trigger_build_falls_back_on_500 {St : Type} (B : Backend St)
    (w : World St Server.JenkinsContext) (name : string) (parameters : pyval)
    (crumb cookies : gmap string string) (user secret : string)
    (info : JobInfo) (n u : jval) (st1 st2 st3 : St)
    (reply : result Response) (q : option Z) :
  Server.crumb_data (store w) = Some crumb → crumb ≠ ∅ →
  Server.session_cookies (store w) = Some cookies → cookies ≠ ∅ →
  auth (Server.client (store w)) = Some (user, secret) →
  is_none parameters || isinstance_dict parameters = true →
  get_job_info B (net w) (Server.client (store w)) (PyStr name) = (Ok info, st1) →
  job_info_truthy info = true →
  job_keys info !! "nextBuildNumber" = Some n →
  job_keys info !! "url" = Some u →
  http B st1 (Server.post_call B (server (Server.client (store w))) (user, secret)
                crumb cookies name parameters) = (reply, st2) →
  match reply with Ok resp => status_code resp = 500 | Raise _ => True end →
  build_job B st2 (Server.client (store w)) (PyStr name) parameters = (Ok q, st3) →
  ∃ w', Server.trigger_build B (PyStr name) parameters w
        = (Ok (mkResult "triggered" name q n u (str_of_jval u +:+ str_of_jval n +:+ "/")), w')
    ∧ calls w' = calls w ++
        [ClientGetJobInfo (Server.client (store w)) (PyStr name);
         Server.post_call B (server (Server.client (store w))) (user, secret)
           crumb cookies name parameters;
         ClientBuildJob (Server.client (store w)) (PyStr name) parameters].
Proof.
  intros Hcd Hcrumb Hsc Hcookies Hauth Hty Hinfo Htruthy Hn Hu Hpost Hreply Hq.
  destruct (trigger_build_falls_back B w name parameters crumb cookies user secret
              info n u st1 reply st2 q st3) as (w' & Hrun & Hcalls & _); try done.
  - intros resp ->. rewrite Hreply. done.
  - eauto.
Qed.

Lemma trigger_build_falls_back_on_500_witness :
  ∃ w',
    Server.trigger_build Mock.test_backend (PyStr "test-job") PyNone
      (Mock.world [Mock.reply 500 "" ∅ ∅] Mock.password_context)
    = (Ok (mkResult "triggered" "test-job" (Some 123) (JInt 42)
             (JStr "http://localhost:8080/job/test-job/")
             "http://localhost:8080/job/test-job/42/"), w')
    ∧ calls w'
      = [ClientGetJobInfo Mock.test_client (PyStr "test-job");
         SessionPost {[ "JSESSIONID" := "test-session-id" ]}
           "http://localhost:8080/job/test-job/build"
           {[ "Jenkins-Crumb" := "test-crumb-value" ]}
           ("testuser", "testpassword") None;
         ClientBuildJob Mock.test_client (PyStr "test-job") PyNone].
Proof.
  assert (Hne : ∀ k v : string, ({[ k := v ]} : gmap string string) ≠ ∅)
    by (intros; apply map_non_empty_singleton).
  pose proof (trigger_build_falls_back_on_500 Mock.test_backend
           (Mock.world [Mock.reply 500 "" ∅ ∅] Mock.password_context)
           "test-job" PyNone
           {[ "Jenkins-Crumb" := "test-crumb-value" ]}
           {[ "JSESSIONID" := "test-session-id" ]}
           "testuser" "testpassword" Mock.test_job_info
           (JInt 42) (JStr "http://localhost:8080/job/test-job/")
           [Mock.reply 500 "" ∅ ∅] [] []
           (Mock.reply 500 "" ∅ ∅) (Some 123)
           eq_refl (Hne _ _) eq_refl (Hne _ _) eq_refl eq_refl eq_refl eq_refl
           eq_refl eq_refl eq_refl eq_refl eq_refl) as H.
  vm_compute in H. vm_compute. exact H.
Defined.


(** ** [server.py]: sessions without a usable crumb *)

Section ServerNoCrumb.
Context {St : Type} (B : Backend St).

Lemma trigger_build_no_http (job_name parameters : pyval) :
  quiet lacks_crumb no_http (Server.trigger_build B job_name parameters).
Proof.
  unfold Server.trigger_build.
  destruct job_name; try apply quiet_raise.
  destruct (negb (is_none parameters) && negb (isinstance_dict parameters));
    [apply quiet_raise |].
  apply quiet_read. intros [cl cd sc] Hlacks. unfold lacks_crumb in Hlacks. simpl in *.
  apply quiet_bind; [repeat quiet_step | intros info].
  apply quiet_try_except; [| intros; apply quiet_raise].
  apply quiet_bind; [apply quiet_lift | intros n].
  apply quiet_bind.
  - destruct cd as [crumb|], sc as [cookies|]; simpl in Hlacks;
      rewrite ?Hlacks; apply quiet_ret.
  - intros [r|]; repeat quiet_step.
Qed.

Lemma list_jobs_no_http I : quiet I no_http (Server.list_jobs B).
Proof. unfold Server.list_jobs. repeat quiet_step. Qed.

Lemma get_build_status_no_http I (job_name build_number : pyval) :
  quiet I no_http (Server.get_build_status B job_name build_number).
Proof. unfold Server.get_build_status. repeat quiet_step. Qed.

Lemma run_tools_no_http (ts : list Server.ToolCall) :
  quiet lacks_crumb no_http (Server.run_tools B ts).
Proof.
  induction ts as [|t ts IH]; simpl; [apply quiet_ret |].
  apply quiet_bind; [| done].
  unfold Server.run_tool. apply quiet_try_except; [| intros; apply quiet_ret].
  destruct t.
  - apply quiet_bind; [apply list_jobs_no_http | intros; apply quiet_ret].
  - apply quiet_bind; [apply trigger_build_no_http | intros; apply quiet_ret].
  - apply quiet_bind; [apply get_build_status_no_http | intros; apply quiet_ret].
Qed.

(** With the token switch on, the lifespan makes no call at all. *)
Lemma jenkins_lifespan_token {S} (environ : gmap string string) (w : World St S) :
  Server.use_token_of environ = true →
  ∀ ctx w', Server.jenkins_lifespan B environ w = (Ok ctx, w') →
    w' = w ∧ Server.crumb_data ctx = None ∧ Server.session_cookies ctx = None.
Proof.
  intros Htoken ctx w'. unfold Server.jenkins_lifespan. rewrite Htoken. run.
  repeat (match goal with
          | |- context [dict_getitem ?d ?k] => destruct (dict_getitem d k); simpl
          end); try done.
  by intros [= <- <-].
Qed.
End ServerNoCrumb.

(** C9.  [trigger_build] makes its own HTTP request only when the crumb
    and the cookies are both present and non-empty.  When one of them is
    missing or empty (a crumb fetched from a server that set no cookie
    gives the empty cookie mapping), no HTTP request is made by the call,
    and once the job has been looked up the build is submitted through
    [client.build_job]. *)
Theorem trigger_build_without_cookies {St : Type} (B : Backend St)
    (w : World St Server.JenkinsContext) (job_name parameters : pyval) :
  lacks_crumb (store w) →
  (∃ new, calls (Server.trigger_build B job_name parameters w).2 = calls w ++ new
          ∧ Forall no_http new)
  ∧ (∀ name info st1 n,
       job_name = PyStr name →
       is_none parameters || isinstance_dict parameters = true →
       get_job_info B (net w) (Server.client (store w)) (PyStr name) = (Ok info, st1) →
       job_info_truthy info = true →
       job_keys info !! "nextBuildNumber" = Some n →
       calls (Server.trigger_build B job_name parameters w).2
       = calls w ++ [ClientGetJobInfo (Server.client (store w)) (PyStr name);
                     ClientBuildJob (Server.client (store w)) (PyStr name) parameters]).
Proof.
  intros Hlacks. split.
  - by destruct (trigger_build_no_http B job_name parameters w Hlacks) as [_ ?].
  - intros name info st1 n -> Hty Hinfo Htruthy Hn.
    destruct (trigger_build_client_only B w name parameters info st1 n)
      as (r & w' & Hrun & Hcalls & _); try done.
    by rewrite Hrun.
Qed.

Lemma trigger_build_without_cookies_witness :
  calls (Server.trigger_build Mock.test_backend (PyStr "test-job") PyNone
           (Mock.world [Mock.reply 201 "" ∅ ∅]
              (Server.mkContext Mock.test_client
                 (Some {[ "Jenkins-Crumb" := "test-crumb-value" ]}) (Some ∅)))).2
  = [ClientGetJobInfo Mock.test_client (PyStr "test-job");
     ClientBuildJob Mock.test_client (PyStr "test-job") PyNone].
Proof.
  exact (proj2 (trigger_build_without_cookies Mock.test_backend
                  (Mock.world [Mock.reply 201 "" ∅ ∅]
                     (Server.mkContext Mock.test_client
                        (Some {[ "Jenkins-Crumb" := "test-crumb-value" ]}) (Some ∅)))
                  (PyStr "test-job") PyNone eq_refl)
           "test-job" Mock.test_job_info [Mock.reply 201 "" ∅ ∅] (JInt 42)
           eq_refl eq_refl eq_refl eq_refl eq_refl).
Defined.

(** C5.  In a session started with the token switch on, the crumb and
    the cookies of the context are [None] after any sequence of tool
    calls, and no HTTP request has been made by the process: the crumb
    issuer is never asked. *)
Theorem token_session_has_no_crumb {St : Type} (B : Backend St)
    (environ : gmap string string) (ts : list Server.ToolCall)
    (w : World St ()) (w' : World St Server.JenkinsContext) :
  Server.use_token_of environ = true →
  Server.session B environ ts w = Some w' →
  Server.crumb_data (store w') = None
  ∧ Server.session_cookies (store w') = None
  ∧ ∃ new, calls w' = calls w ++ new ∧ Forall no_http new.
Proof.
  intros Htoken. unfold Server.session.
  destruct (Server.jenkins_lifespan B environ w) as [[ctx|e] w1] eqn:Hstart; [| done].
  destruct (jenkins_lifespan_token B environ w Htoken ctx w1 Hstart) as (-> & Hcd & Hsc).
  intros [= <-].
  destruct (run_tools_no_http B ts (Server.install ctx w)) as (Hstore & new & Hcalls & Hnew).
  { unfold lacks_crumb. simpl. by rewrite Hcd. }
  rewrite Hstore. simpl. eauto.
Qed.

Lemma token_session_has_no_crumb_witness :
  match
    Server.session Mock.test_backend
      {[ "JENKINS_URL" := "http://localhost:8080";
         "JENKINS_USERNAME" := "testuser";
         "JENKINS_PASSWORD" := "api-token-123";
         "JENKINS_USE_API_TOKEN" := "true" ]}
      [Server.ListJobs; Server.TriggerBuild (PyStr "test-job") PyNone;
       Server.GetBuildStatus (PyStr "test-job") (PyInt 42)]
      (Mock.world [] ())
  with
  | Some w' =>
      Server.crumb_data (store w') = None
      ∧ Server.session_cookies (store w') = None
      ∧ ∃ new, calls w' = [] ++ new ∧ Forall no_http new
  | None => False
  end.
Proof.
  destruct (Server.session _ _ _ _) as [w'|] eqn:E.
  - exact (token_session_has_no_crumb Mock.test_backend
             {[ "JENKINS_URL" := "http://localhost:8080";
                "JENKINS_USERNAME" := "testuser";
                "JENKINS_PASSWORD" := "api-token-123";
                "JENKINS_USE_API_TOKEN" := "true" ]}
             [Server.ListJobs; Server.TriggerBuild (PyStr "test-job") PyNone;
              Server.GetBuildStatus (PyStr "test-job") (PyInt 42)]
             (Mock.world [] ()) w' eq_refl E).
  - vm_compute in E. discriminate.
Defined.

(** ** [jenkins_api_fix.py]: the retrying executor *)
Section ScriptRuns.
Context {St : Type} (B : Backend St).

Implicit Types (w : World St (gmap string string)).

(** X5.  The script's crumb fetch never raises, makes exactly one GET, and
    a crumb it returns is a non-empty header. *)
Theorem script_get_jenkins_crumb_runs jenkins_url username password w :
  ∃ r w', Script.get_jenkins_crumb B jenkins_url username password w = (Ok r, w')
    ∧ calls w' = calls w ++
        [SessionGet (store w) (urljoin B jenkins_url "crumbIssuer/api/json")
           (username, password)]
    ∧ dict_truthy r = (if r is Some _ then true else false).
Proof.
  unfold Script.get_jenkins_crumb, Script.session_send. run.
  destruct (http B (net w) _) as [[resp|e] st'] eqn:Hhttp; simpl; [| by eauto 6].
  destruct (status_code resp =? 200); simpl; [| by eauto 6].
  unfold response_json. destruct (json resp) as [crumb_data|]; simpl; [| by eauto 6].
  destruct (negb (dict_nonempty crumb_data) || _ || _) eqn:Hbad; simpl; [by eauto 6 |].
  unfold dict_getitem.
  destruct (crumb_data !! "crumbRequestField") as [field|]; simpl; [| by eauto 6].
  destruct (crumb_data !! "crumb") as [value|]; simpl; [| by eauto 6].
  eexists _, _. split; [reflexivity |]. split; [done |].
  simpl. unfold dict_nonempty. apply bool_decide_eq_true_2, map_non_empty_singleton.
Qed.

(** A call with [retry_on_auth_failure=False] is one request: its answer
    is returned as it is, an exception is logged and raised again. *)
Lemma request_without_retry self jenkins_url username password method path crumb
    params data w :
  Script.make_jenkins_request_step B self jenkins_url username password method path
    crumb params data false w
  = let request :=
      SessionRequest (store w) method (urljoin B jenkins_url path) (username, password)
        (Script.crumb_headers crumb) params data in
    match http B (net w) request with
    | (Ok response, st') =>
        (Ok response,
         mkWorld st' (calls w ++ [request]) (logged w) (resp_cookies response ∪ store w))
    | (Raise e, st') =>
        (Raise e,
         mkWorld st' (calls w ++ [request])
           (logged w ++ [(ERROR, "Error making Jenkins request: " +:+ str_of_exn e)])
           (store w))
    end.
Proof.
  unfold Script.make_jenkins_request_step, Script.session_send. run.
  destruct (http B (net w) _) as [[resp|e] st']; simpl; [| done].
  by rewrite andb_false_r.
Qed.

(** X4.  The recursive equation of the source: the two levels of
    [make_jenkins_request] are the whole recursion. *)
Theorem make_jenkins_request_unfold jenkins_url username password method path crumb
    params data retry w :
  Script.make_jenkins_request B jenkins_url username password method path crumb
    params data retry w
  = Script.make_jenkins_request_step B (Script.make_jenkins_request B)
      jenkins_url username password method path crumb params data retry w.
Proof.
  unfold Script.make_jenkins_request.
  unfold Script.make_jenkins_request_step at 1 3.
  unfold Script.session_send. run.
  destruct (http B (net w) _) as [[resp|e] st']; simpl; [| done].
  destruct ((status_code resp =? 403) && retry && Script.mentions_crumb (text resp));
    simpl; [| done].
  destruct (Script.get_jenkins_crumb B jenkins_url username password _)
    as [[new_crumb|e] w2]; simpl; [| done].
  destruct (dict_truthy new_crumb); simpl; [| done].
  by rewrite !request_without_retry.
Qed.

Lemma crumb_headers_fresh (c : gmap jval jval) :
  dict_nonempty c = true → Script.crumb_headers (Some c) = c.
Proof. intros H. unfold Script.crumb_headers. rewrite H. apply (right_id_L ∅ (∪)). Qed.

(** C2 (amended).  One call of the executor sends the request, then at
    most one crumb fetch, then at most the same request once more.  On a
    first attempt answered with 403 and a body that names the crumb, the
    crumb is fetched again; when the fetch yields a crumb the same
    request is sent once more with it, and whatever answers that second
    request (a 403 included) is the outcome; when the fetch yields no
    crumb the first response is returned and nothing is sent again. *)
Theorem make_jenkins_request_retries_once
    (jenkins_url username password method path : string)
    (crumb : option (gmap jval jval)) (params data : pyval) (retry : bool)
    (w : World St (gmap string string)) :
  let auth := (username, password) in
  let url := urljoin B jenkins_url path in
  let first := SessionRequest (store w) method url auth (Script.crumb_headers crumb)
                 params data in
  let fetch := λ g, ∃ jar, g = SessionGet jar (urljoin B jenkins_url "crumbIssuer/api/json") auth in
  let out := Script.make_jenkins_request B jenkins_url username password method path
               crumb params data retry w in
  (∃ made, calls out.2 = calls w ++ made ∧ at_most_one_retry first fetch made)
  ∧ ∀ resp st1,
      http B (net w) first = (Ok resp, st1) →
      status_code resp = 403 →
      Script.mentions_crumb (text resp) = true →
      retry = true →
      ∃ g new_crumb w2,
        fetch g
        ∧ Script.get_jenkins_crumb B jenkins_url username password
            (mkWorld st1 (calls w ++ [first])
               (logged w ++ [(INFO, "Crumb expired, refreshing and retrying request")])
               (resp_cookies resp ∪ store w))
          = (Ok new_crumb, w2)
        ∧ calls w2 = calls w ++ [first; g]
        ∧ match new_crumb with
          | Some c =>
              let second := SessionRequest (store w2) method url auth c params data in
              out.1 = (http B (net w2) second).1
              ∧ calls out.2 = calls w ++ [first; g; second]
          | None => out = (Ok resp, w2)
          end.
Proof.
  intros auth url first fetch out.
  destruct out as [r wf] eqn:Hout. subst out. simpl.
  unfold Script.make_jenkins_request in Hout.
  unfold Script.make_jenkins_request_step at 1 in Hout.
  unfold Script.session_send, bind, try_except, call, lift, ret, raise,
    get_store, put_store, log in Hout.
  simpl in Hout. fold url auth first in Hout.
  destruct (http B (net w) first) as [[resp|e] st1] eqn:Hfirst; simpl in Hout.
  2: { injection Hout as <- <-. split; [| done].
       exists [first]. split; [done |]. by left. }
  destruct ((status_code resp =? 403) && retry && Script.mentions_crumb (text resp))
    eqn:Hcond; simpl in Hout.
  2: { injection Hout as <- <-. split.
       - exists [first]. split; [done |]. by left.
       - intros ? ? [= <- <-] Hstatus Hbody ->. rewrite Hstatus, Hbody in Hcond. done. }
  match type of Hout with
  | context [Script.get_jenkins_crumb B jenkins_url username password ?w1] =>
      destruct (script_get_jenkins_crumb_runs jenkins_url username password w1)
        as (new_crumb & w2 & Hfetch & Hcalls & Htruthy);
      rewrite Hfetch in Hout
  end.
  simpl in Hcalls, Hout. rewrite <- app_assoc in Hcalls. simpl in Hcalls.
  rewrite Htruthy in Hout.
  destruct new_crumb as [c|]; simpl in Hout.
  - rewrite request_without_retry, (crumb_headers_fresh c Htruthy) in Hout.
    simpl in Hout. fold url auth in Hout.
    set (second := SessionRequest (store w2) method url auth c params data) in *.
    assert (Hline : request_line second = request_line first) by done.
    destruct (http B (net w2) second) as [[resp2|e2] st3] eqn:Hsecond;
      simpl in Hout; injection Hout as <- <-; simpl.
    all: rewrite Hcalls, <- app_assoc; simpl.
    all: split;
      [ eexists; split; [reflexivity |]; right; right;
        eexists _, second; split; [by eexists |]; by split
      | intros ? ? [= <- <-] _ _ _; eexists _, (Some c), w2;
        split; [by eexists |]; split; [done |]; split; [done |];
        simpl; fold second; by rewrite Hsecond ].
  - injection Hout as <- <-. split.
    + eexists. split; [exact Hcalls |]. right; left. eexists. split; [by eexists | done].
    + intros ? ? [= <- <-] _ _ _. eexists _, None, w2.
      split; [by eexists |]. by split.
Qed.

Lemma mentions_crumb_spec (body : string) :
  Script.mentions_crumb body = true
  ↔ (∃ a b, body = a +:+ "No valid crumb" +:+ b)
    ∨ (∃ a b, body = a +:+ "Invalid crumb" +:+ b).
Proof.
  unfold Script.mentions_crumb. by rewrite orb_true_iff, !str_contains_spec.
Qed.

(** C8 (amended).  The detection is case-sensitive.  On a first attempt
    answered with 403, a body that contains [No valid crumb] or
    [Invalid crumb], spelled exactly so, triggers the crumb fetch (the
    retry follows when the fetch yields a crumb); a body that contains
    neither spelling triggers nothing and the response is returned. *)
Theorem crumb_rejection_is_case_sensitive
    (jenkins_url username password method path : string)
    (crumb : option (gmap jval jval)) (params data : pyval)
    (w : World St (gmap string string)) (resp : Response) (st1 : St) :
  let auth := (username, password) in
  let first := SessionRequest (store w) method (urljoin B jenkins_url path) auth
                 (Script.crumb_headers crumb) params data in
  let out := Script.make_jenkins_request B jenkins_url username password method path
               crumb params data true w in
  let spelled :=
    (∃ a b, text resp = a +:+ "No valid crumb" +:+ b)
    ∨ (∃ a b, text resp = a +:+ "Invalid crumb" +:+ b) in
  http B (net w) first = (Ok resp, st1) →
  status_code resp = 403 →
  (spelled →
   ∃ rest, calls out.2
           = calls w ++ first
               :: SessionGet (resp_cookies resp ∪ store w)
                    (urljoin B jenkins_url "crumbIssuer/api/json") auth
               :: rest)
  ∧ (¬ spelled →
     out = (Ok resp,
            mkWorld st1 (calls w ++ [first]) (logged w) (resp_cookies resp ∪ store w))).
Proof.
  intros auth first out spelled Hfirst Hstatus.
  destruct out as [r wf] eqn:Hout. subst out. simpl.
  unfold Script.make_jenkins_request in Hout.
  unfold Script.make_jenkins_request_step at 1 in Hout.
  unfold Script.session_send, bind, try_except, call, lift, ret, raise,
    get_store, put_store, log in Hout.
  simpl in Hout. fold auth first in Hout.
  rewrite Hfirst, Hstatus in Hout. simpl in Hout.
  destruct (Script.mentions_crumb (text resp)) eqn:Hbody; simpl in Hout.
  - split; [intros _ | intros Hnot; by apply mentions_crumb_spec in Hbody].
    match type of Hout with
    | context [Script.get_jenkins_crumb B jenkins_url username password ?w1] =>
        destruct (script_get_jenkins_crumb_runs jenkins_url username password w1)
          as (new_crumb & w2 & Hfetch & Hcalls & Htruthy);
        rewrite Hfetch in Hout
    end.
    simpl in Hcalls, Hout. rewrite <- app_assoc in Hcalls. simpl in Hcalls.
    rewrite Htruthy in Hout.
    destruct new_crumb as [c|]; simpl in Hout.
    + rewrite request_without_retry in Hout. simpl in Hout.
      destruct (http B (net w2) _) as [[resp2|e2] st3];
        simpl in Hout; injection Hout as <- <-; simpl;
        rewrite Hcalls, <- app_assoc; simpl; by eexists.
    + injection Hout as <- <-. rewrite Hcalls. by eexists.
  - injection Hout as <- <-. split; [| done].
    intros Hyes%mentions_crumb_spec. congruence.
Qed.
End ScriptRuns.

Lemma make_jenkins_request_retries_once_witness :
  let rejected := Mock.reply 403 "No valid crumb was included in the request" ∅ ∅ in
  let issued :=
    Ok (mkResponse 200 "" ∅ {[ "JSESSIONID" := "fresh" ]}
          (Some {[ "crumbRequestField" := JStr "Jenkins-Crumb"; "crumb" := JStr "new" ]})) in
  let out :=
    Script.make_jenkins_request Mock.test_backend "http://localhost:8080" "testuser"
      "testpassword" "POST" "job/test-job/build"
      (Some {[ JStr "Jenkins-Crumb" := JStr "stale" ]}) PyNone PyNone true
      (Mock.world [rejected; issued; rejected] ∅) in
  out.1 = rejected
  ∧ calls out.2
    = [SessionRequest ∅ "POST" "http://localhost:8080/job/test-job/build"
         ("testuser", "testpassword") {[ JStr "Jenkins-Crumb" := JStr "stale" ]}
         PyNone PyNone;
       SessionGet ∅ "http://localhost:8080/crumbIssuer/api/json"
         ("testuser", "testpassword");
       SessionRequest {[ "JSESSIONID" := "fresh" ]} "POST"
         "http://localhost:8080/job/test-job/build"
         ("testuser", "testpassword") {[ JStr "Jenkins-Crumb" := JStr "new" ]}
         PyNone PyNone].
Proof.
  intros rejected issued out.
  destruct (proj2 (make_jenkins_request_retries_once Mock.test_backend
                     "http://localhost:8080" "testuser" "testpassword" "POST"
                     "job/test-job/build"
                     (Some {[ JStr "Jenkins-Crumb" := JStr "stale" ]}) PyNone PyNone true
                     (Mock.world [rejected; issued; rejected] ∅))
              (mkResponse 403 "No valid crumb was included in the request" ∅ ∅ None)
              [issued; rejected] eq_refl eq_refl eq_refl eq_refl)
    as (g & new_crumb & w2 & _ & Hfetch & Hcalls & Hout).
  vm_compute in Hfetch. injection Hfetch as <- <-.
  vm_compute in Hcalls. injection Hcalls as <-.
  vm_compute in Hout. vm_compute. exact Hout.
Defined.

(** C2 as stated fails: a 403 that names the crumb, on a first attempt,
    is not retried when the crumb cannot be fetched again; the request has
    been sent once. *)
Lemma make_jenkins_request_counterexample :
  let rejected := Mock.reply 403 "No valid crumb was included in the request" ∅ ∅ in
  let out :=
    Script.make_jenkins_request Mock.test_backend "http://localhost:8080" "testuser"
      "testpassword" "POST" "job/test-job/build"
      (Some {[ JStr "Jenkins-Crumb" := JStr "stale" ]}) PyNone PyNone true
      (Mock.world [rejected; Mock.reply 503 "" ∅ ∅] ∅) in
  out.1 = rejected
  ∧ calls out.2
    = [SessionRequest ∅ "POST" "http://localhost:8080/job/test-job/build"
         ("testuser", "testpassword") {[ JStr "Jenkins-Crumb" := JStr "stale" ]}
         PyNone PyNone;
       SessionGet ∅ "http://localhost:8080/crumbIssuer/api/json"
         ("testuser", "testpassword")].
Proof. by vm_compute. Qed.

Lemma crumb_rejection_is_case_sensitive_witness :
  ∃ rest,
    calls (Script.make_jenkins_request Mock.test_backend "http://localhost:8080"
             "testuser" "testpassword" "POST" "job/test-job/build" None PyNone PyNone true
             (Mock.world [Mock.reply 403 "Error 403 No valid crumb was included" ∅ ∅] ∅)).2
    = [] ++ SessionRequest ∅ "POST" (Mock.urljoin_root "http://localhost:8080" "job/test-job/build")
               ("testuser", "testpassword") (Script.crumb_headers None) PyNone PyNone
            :: SessionGet (∅ ∪ ∅) (Mock.urljoin_root "http://localhost:8080" "crumbIssuer/api/json")
                 ("testuser", "testpassword")
            :: rest.
Proof.
  exact (proj1 (crumb_rejection_is_case_sensitive Mock.test_backend
                  "http://localhost:8080" "testuser" "testpassword" "POST"
                  "job/test-job/build" None PyNone PyNone
                  (Mock.world [Mock.reply 403 "Error 403 No valid crumb was included" ∅ ∅] ∅)
                  (mkResponse 403 "Error 403 No valid crumb was included" ∅ ∅ None) []
                  eq_refl eq_refl)
           (or_introl (ex_intro _ "Error 403 "
                         (ex_intro _ " was included" eq_refl)))).
Defined.

(** C8 as stated fails: a 403 whose body has the words in another casing
    triggers neither the crumb fetch nor a retry. *)
Lemma crumb_rejection_counterexample :
  let rejected := Mock.reply 403 "no valid crumb was included in the request" ∅ ∅ in
  let out :=
    Script.make_jenkins_request Mock.test_backend "http://localhost:8080" "testuser"
      "testpassword" "POST" "job/test-job/build"
      (Some {[ JStr "Jenkins-Crumb" := JStr "stale" ]}) PyNone PyNone true
      (Mock.world [rejected; Mock.reply 200 "" ∅ ∅; Mock.reply 201 "" ∅ ∅] ∅) in
  str_contains (lower "No valid crumb") (lower "no valid crumb was included in the request")
  = true
  ∧ out.1 = rejected
  ∧ calls out.2
    = [SessionRequest ∅ "POST" "http://localhost:8080/job/test-job/build"
         ("testuser", "testpassword") {[ JStr "Jenkins-Crumb" := JStr "stale" ]}
         PyNone PyNone].
Proof. by vm_compute. Qed.

(** ** Further properties of [trigger_build] in [server.py] *)

(** X2.  A failed job lookup ends the call: [ValueError], no POST, no
    [build_job]. *)
Theorem trigger_build_job_not_found {St : Type} (B : Backend St)
    (w : World St Server.JenkinsContext) (name : string) (parameters : pyval)
    (answer : result JobInfo) (st1 : St) :
  is_none parameters || isinstance_dict parameters = true →
  get_job_info B (net w) (Server.client (store w)) (PyStr name) = (answer, st1) →
  match answer with Ok info => job_info_truthy info = false | Raise _ => True end →
  ∃ msg,
    Server.trigger_build B (PyStr name) parameters w
    = (Raise (ValueError ("Error checking job " +:+ name +:+ ": " +:+ msg)),
       mkWorld st1 (calls w ++ [ClientGetJobInfo (Server.client (store w)) (PyStr name)])
         (logged w) (store w)).
Proof.
  intros Hty Hinfo Hanswer. unfold Server.trigger_build.
  replace (negb (is_none parameters) && negb (isinstance_dict parameters)) with false
    by (by destruct parameters).
  run. rewrite Hinfo. destruct answer as [info|e]; simpl.
  - rewrite Hanswer. simpl. by eexists.
  - by eexists.
Qed.

Lemma trigger_build_job_not_found_witness :
  ∃ msg,
    Server.trigger_build
      (Mock.backend (Raise (JenkinsException "job[missing-job] does not exist"))
         (Ok (Some 123)))
      (PyStr "missing-job") PyNone
      (Mock.world [Mock.reply 201 "" ∅ ∅] Mock.password_context)
    = (Raise (ValueError ("Error checking job " +:+ "missing-job" +:+ ": " +:+ msg)),
       mkWorld [Mock.reply 201 "" ∅ ∅]
         ([] ++ [ClientGetJobInfo Mock.test_client (PyStr "missing-job")]) []
         Mock.password_context).
Proof.
  exact (trigger_build_job_not_found
           (Mock.backend (Raise (JenkinsException "job[missing-job] does not exist"))
              (Ok (Some 123)))
           (Mock.world [Mock.reply 201 "" ∅ ∅] Mock.password_context)
           "missing-job" PyNone
           (Raise (JenkinsException "job[missing-job] does not exist"))
           [Mock.reply 201 "" ∅ ∅] eq_refl eq_refl I).
Defined.


(** X3.  The [IndexError] of a one-segment [Location] header is raised after
    the POST has been accepted; the handler of line 182 takes it for a
    failed request and the build is submitted again through the client. *)
Theorem trigger_build_resubmits_on_bad_location :
  let out :=
    Server.trigger_build (Mock.backend (Ok Mock.test_job_info) (Ok (Some 456)))
      (PyStr "test-job") PyNone
      (Mock.world [Mock.reply 201 "" {[ "location" := "queued" ]} ∅]
         Mock.password_context) in
  out.1 = Ok (mkResult "triggered" "test-job" (Some 456) (JInt 42)
                (JStr "http://localhost:8080/job/test-job/")
                "http://localhost:8080/job/test-job/42/")
  ∧ calls out.2
    = [ClientGetJobInfo Mock.test_client (PyStr "test-job");
       SessionPost {[ "JSESSIONID" := "test-session-id" ]}
         "http://localhost:8080/job/test-job/build"
         {[ "Jenkins-Crumb" := "test-crumb-value" ]}
         ("testuser", "testpassword") None;
       ClientBuildJob Mock.test_client (PyStr "test-job") PyNone]
  ∧ logged out.2
    = [(WARNING, "Custom build request failed, falling back: list index out of range")].
Proof. by vm_compute. Qed.

(** ** The repository's tests, run on the embedding *)

(** [test_trigger_build_with_parameters]: the parameters go out with the
    POST, to the [buildWithParameters] endpoint. *)
Example test_trigger_build_with_parameters :
  let parameters := PyDict [(PyStr "param1", PyStr "value1"); (PyStr "param2", PyStr "value2")] in
  let out :=
    Server.trigger_build Mock.test_backend (PyStr "test-job") parameters
      (Mock.world
         [Mock.reply 201 "" {[ "location" := "http://localhost:8080/queue/item/123/" ]} ∅]
         Mock.password_context) in
  queue_id <$> (match out.1 with Ok r => Some r | Raise _ => None end) = Some (Some 123)
  ∧ calls out.2
    = [ClientGetJobInfo Mock.test_client (PyStr "test-job");
       SessionPost {[ "JSESSIONID" := "test-session-id" ]}
         "http://localhost:8080/job/test-job/buildWithParameters"
         {[ "Jenkins-Crumb" := "test-crumb-value" ]}
         ("testuser", "testpassword") (Some parameters)].
Proof. by vm_compute. Qed.

(** [test_trigger_build_with_token_and_parameters]: without a crumb the
    client gets the job name and the parameters. *)
Example test_trigger_build_with_token_and_parameters :
  let parameters := PyDict [(PyStr "param1", PyStr "value1"); (PyStr "param2", PyStr "value2")] in
  let out :=
    Server.trigger_build Mock.test_backend (PyStr "test-job") parameters
      (Mock.world [] Mock.token_context) in
  out.1 = Ok (mkResult "triggered" "test-job" (Some 123) (JInt 42)
                (JStr "http://localhost:8080/job/test-job/")
                "http://localhost:8080/job/test-job/42/")
  ∧ calls out.2
    = [ClientGetJobInfo Mock.test_client (PyStr "test-job");
       ClientBuildJob Mock.test_client (PyStr "test-job") parameters].
Proof. by vm_compute. Qed.
